(** * Sentinel: priority task queue and worker retry loop

    A shallow embedding of [common/models.py], [common/redis_queue.py],
    [worker/worker.py] and the statistics endpoint of [main.py].

    Conventions of the model.
    - Python [int] is [Z]; [str] is [string].  A Python [float] is kept
      as the rational [Qc] that is its value.  The modules named after
      the source files compute the score with exact arithmetic on these
      values; module [binary64] computes it as the code does, in double
      precision with the rounding and the [OverflowError] of Python, and
      is what the statements that depend on the value of a score are
      about.
    - JSON data is the inductive type [json]; a Python [dict] with string
      keys is an association list in insertion order.
    - [json.dumps] is injective on JSON data and [json.loads] inverts it,
      so a sorted-set member, which the code stores as JSON text, is kept
      as the dictionary that the text denotes.
    - The [state] holds what the code reads and writes: the sorted set
      under [QUEUE_KEY], the hash under [STATUS_KEY], the list of
      [time.sleep] calls made so far, and the variable [task] of
      [worker_loop].  Code that talks to Redis is written in a
      state-and-exception monad over [state]; the store is taken to be
      reachable, so no command raises a connection error.
    - What the code takes from outside is an argument of the model: the
      value of [random.random()], of [uuid.uuid4()] and of [time.time()],
      and the arrival of the shutdown signal.
    - [print] calls are not modelled. *)

From Stdlib Require Import ZArith QArith Qcanon Qpower Lqa Lia SpecFloat.
From stdpp Require Import base numbers list sorting strings gmap.

Open Scope Z_scope.
Set Warnings "-register-all".

(** ** JSON data *)

Inductive json : Type :=
  | JNull
  | JBool (b : bool)
  | JInt (z : Z)
  | JFloat (q : Qc)
  | JStr (s : string)
  | JList (l : list json)
  | JDict (d : list (string * json)).

(** A [dict] with string keys, in insertion order. *)
Abbreviation pydict := (list (string * json)).

Section json_induction.
Variable P : json -> Prop.
Hypothesis Hnull : P JNull.
Hypothesis Hbool : forall b, P (JBool b).
Hypothesis Hint : forall z, P (JInt z).
Hypothesis Hfloat : forall q, P (JFloat q).
Hypothesis Hstr : forall s, P (JStr s).
Hypothesis Hlist : forall l, Forall P l -> P (JList l).
Hypothesis Hdict : forall d, Forall (fun kv => P kv.2) d -> P (JDict d).

Fixpoint json_nested_ind (j : json) : P j :=
  match j with
  | JNull => Hnull
  | JBool b => Hbool b
  | JInt z => Hint z
  | JFloat q => Hfloat q
  | JStr s => Hstr s
  | JList l =>
      Hlist l
        ((fix go (l : list json) : Forall P l :=
            match l with
            | [] => @List.Forall_nil _ P
            | x :: l' => @List.Forall_cons _ P x l' (json_nested_ind x) (go l')
            end) l)
  | JDict d =>
      Hdict d
        ((fix go (d : pydict) : Forall (fun kv => P kv.2) d :=
            match d with
            | [] => @List.Forall_nil _ _
            | kv :: d' =>
                @List.Forall_cons _ (fun kv => P kv.2) kv d'
                  (json_nested_ind kv.2) (go d')
            end) d)
  end.
End json_induction.

(** Equality of JSON data, as [==] on the Python values or as equality of
    the JSON texts. *)
Fixpoint json_eqb (a b : json) : bool :=
  match a, b with
  | JNull, JNull => true
  | JBool x, JBool y => bool_decide (x = y)
  | JInt x, JInt y => bool_decide (x = y)
  | JFloat x, JFloat y => bool_decide (x = y)
  | JStr x, JStr y => bool_decide (x = y)
  | JList l1, JList l2 =>
      (fix go (l1 l2 : list json) : bool :=
         match l1, l2 with
         | [], [] => true
         | x :: l1', y :: l2' => json_eqb x y && go l1' l2'
         | _, _ => false
         end) l1 l2
  | JDict d1, JDict d2 =>
      (fix go (d1 d2 : pydict) : bool :=
         match d1, d2 with
         | [], [] => true
         | (k1, x) :: d1', (k2, y) :: d2' =>
             bool_decide (k1 = k2) && json_eqb x y && go d1' d2'
         | _, _ => false
         end) d1 d2
  | _, _ => false
  end.

Lemma json_eqb_spec (a b : json) : json_eqb a b = true <-> a = b.
Proof.
  revert b. induction a as [| x | x | x | x | l IH | d IH] using json_nested_ind;
    intros [| y | y | y | y | l2 | d2]; simpl;
    try (split; [discriminate | congruence]);
    try tauto;
    try (rewrite bool_decide_eq_true; split; congruence).
  - revert l2. induction IH as [| x l Hx _ IHl]; intros [| y l2];
      try (split; [discriminate | congruence]); [tauto |].
    rewrite andb_true_iff, Hx, IHl. split.
    + intros [-> E]. by inversion E.
    + intros E. inversion E. done.
  - revert d2. induction IH as [| [k x] d Hx _ IHd]; intros [| [k2 y] d2];
      try (split; [discriminate | congruence]); [tauto |].
    simpl in Hx.
    rewrite !andb_true_iff, bool_decide_eq_true, Hx, IHd. split.
    + intros [[-> ->] E]. by inversion E.
    + intros E. inversion E. done.
Qed.

#[global] Instance json_eq_dec : EqDecision json.
Proof.
  intros a b. destruct (json_eqb a b) eqn:E.
  - left. by apply json_eqb_spec.
  - right. intros H. apply json_eqb_spec in H. congruence.
Defined.

(** ** Exceptions and results *)

Inductive exn : Type :=
  | KeyError (key : string)
      (** subscript of a [dict] with a key it does not hold *)
  | TypeError
      (** a call whose arguments do not fit the function's parameters *)
  | KeyboardInterrupt
      (** the shutdown signal of the worker *)
  | OverflowError
      (** conversion to [float] of an [int] beyond the range of a double *)
  | OutsideAnnotation (field : string)
      (** not a Python exception: a value whose type is not the one the
          dataclass annotates, or a score that is not a finite number,
          where the typed model stops *).

Inductive result (A : Type) : Type :=
  | Ok (a : A)
  | Raised (e : exn).
Arguments Ok {A} a.
Arguments Raised {A} e.

Definition result_bind {A B} (r : result A) (k : A -> result B) : result B :=
  match r with
  | Ok a => k a
  | Raised e => Raised e
  end.

(** ** Dictionaries *)

(** [d.get(key)], [None] when the key is absent. *)
Fixpoint dict_lookup (d : pydict) (key : string) : option json :=
  match d with
  | [] => None
  | (k, v) :: d' => if decide (k = key) then Some v else dict_lookup d' key
  end.

(** [d[key]] *)
Definition subscript (d : pydict) (key : string) : result json :=
  match dict_lookup d key with
  | Some v => Ok v
  | None => Raised (KeyError key)
  end.

(** [d.get(key, default)] *)
Definition dict_get (d : pydict) (key : string) (default : json) : json :=
  match dict_lookup d key with
  | Some v => v
  | None => default
  end.

(** ** common/models.py *)

Module models.

Record Task : Type := mkTask {
  id : string;
  payload : pydict;
  priority : Z;
  retries : Z;
  status : string;
  created_at : Qc
}.

(** [dataclasses.asdict] copies lists and dictionaries recursively and
    returns every other value as it is. *)
Fixpoint asdict_inner (obj : json) : json :=
  match obj with
  | JList l => JList (map asdict_inner l)
  | JDict d => JDict (map (fun kv => (kv.1, asdict_inner kv.2)) d)
  | _ => obj
  end.

Definition to_dict (self : Task) : pydict :=
  [ ("id"%string, JStr self.(id));
    ("payload"%string, asdict_inner (JDict self.(payload)));
    ("priority"%string, JInt self.(priority));
    ("retries"%string, JInt self.(retries));
    ("status"%string, JStr self.(status));
    ("created_at"%string, JFloat self.(created_at)) ].

(** The constructor [Task(...)], with every field held to its
    annotation. *)
Definition Task_init (v_id v_payload v_priority v_retries v_status
                        v_created_at : json) : result Task :=
  match v_id, v_payload, v_priority, v_retries, v_status, v_created_at with
  | JStr i, JDict p, JInt pr, JInt r, JStr s, JFloat c =>
      Ok (mkTask i p pr r s c)
  | JStr _, JDict _, JInt _, JInt _, JStr _, _ =>
      Raised (OutsideAnnotation "created_at")
  | JStr _, JDict _, JInt _, JInt _, _, _ =>
      Raised (OutsideAnnotation "status")
  | JStr _, JDict _, JInt _, _, _, _ =>
      Raised (OutsideAnnotation "retries")
  | JStr _, JDict _, _, _, _, _ =>
      Raised (OutsideAnnotation "priority")
  | JStr _, _, _, _, _, _ =>
      Raised (OutsideAnnotation "payload")
  | _, _, _, _, _, _ =>
      Raised (OutsideAnnotation "id")
  end.

(** Arguments are evaluated left to right, so a missing ["id"] is
    reported before a missing ["created_at"]. *)
Definition from_dict (data : pydict) : result Task :=
  result_bind (subscript data "id") (fun v_id =>
  let v_payload := dict_get data "payload" (JDict []) in
  let v_priority := dict_get data "priority" (JInt 0) in
  let v_retries := dict_get data "retries" (JInt 0) in
  let v_status := dict_get data "status" (JStr "pending") in
  result_bind (subscript data "created_at") (fun v_created_at =>
  Task_init v_id v_payload v_priority v_retries v_status v_created_at)).

End models.

Abbreviation Task := models.Task.

(** ** The shared store and the worker's view of it *)

(** One entry of the sorted set: the member and its score. *)
Abbreviation zentry := (pydict * Qc)%type.

(** Redis orders entries of equal score by the bytes of the member, here
    the JSON text of a task.  The texts are not spelled out in the model,
    so that order is an interface; nothing below assumes anything of it. *)
Class MemberOrder := member_before : pydict -> pydict -> bool.

Record state : Type := mkState {
  task_queue : list zentry;
    (** the sorted set at [QUEUE_KEY], lowest score first *)
  task_status : gmap string string;
    (** the hash at [STATUS_KEY] *)
  slept : list Qc;
    (** arguments of the [time.sleep] calls so far, oldest first *)
  local_task : option Task
    (** the variable [task] of [worker_loop] *)
}.

Definition set_task_queue (q : list zentry) (w : state) : state :=
  mkState q w.(task_status) w.(slept) w.(local_task).
Definition set_task_status (h : gmap string string) (w : state) : state :=
  mkState w.(task_queue) h w.(slept) w.(local_task).
Definition set_slept (l : list Qc) (w : state) : state :=
  mkState w.(task_queue) w.(task_status) l w.(local_task).
Definition set_local_task (t : option Task) (w : state) : state :=
  mkState w.(task_queue) w.(task_status) w.(slept) t.

(** Computations that read and write the [state] and may raise; the state
    reached when an exception is raised is kept. *)
Definition M (A : Type) : Type := state -> result A * state.

Definition ret {A} (a : A) : M A := fun w => (Ok a, w).
Definition raise {A} (e : exn) : M A := fun w => (Raised e, w).
Definition bind {A B} (c : M A) (k : A -> M B) : M B :=
  fun w =>
    match c w with
    | (Ok a, w') => k a w'
    | (Raised e, w') => (Raised e, w')
    end.
Definition lift_result {A} (r : result A) : M A := fun w => (r, w).

Declare Scope sentinel_scope.
Delimit Scope sentinel_scope with sentinel.
Notation "x <- c1 ;; c2" := (bind c1 (fun x => c2))
  (at level 100, c1 at next level, right associativity) : sentinel_scope.
Notation "c1 ;; c2" := (bind c1 (fun _ => c2))
  (at level 100, right associativity) : sentinel_scope.
Open Scope sentinel_scope.

(** Calling a function of one parameter with the positional arguments
    [args]. *)
Definition call1 {A B} (f : A -> M B) (args : list A) : M B :=
  match args with
  | [a] => f a
  | _ => raise TypeError
  end.

Definition time_sleep (seconds : Qc) : M unit :=
  fun w => (Ok tt, set_slept (w.(slept) ++ [seconds]) w).

(** The value of an [int] as a [float], for the integers a double holds
    exactly; [binary64.float_of_int] is the conversion with its rounding
    and its [OverflowError]. *)
Definition float_of_int (z : Z) : Qc := Q2Qc (inject_Z z).

(** ** The Redis commands the code issues *)

Module client.
Section commands.
Context `{MemberOrder}.

Definition entry_before (x e : zentry) : bool :=
  bool_decide (x.2 < e.2)%Qc
  || (bool_decide (x.2 = e.2) && member_before x.1 e.1).

Fixpoint zset_insert (e : zentry) (zs : list zentry) : list zentry :=
  match zs with
  | [] => [e]
  | x :: zs' =>
      if entry_before x e then x :: zset_insert e zs' else e :: zs
  end.

(** [ZADD key score member]: a member already present is moved to its
    new score, so a member occurs once. *)
Definition zadd_entries (member : pydict) (score : Qc)
    (zs : list zentry) : list zentry :=
  zset_insert (member, score) (filter (fun x => x.1 <> member) zs).

(** [client.zadd(QUEUE_KEY, {member: score})] *)
Definition zadd (member : pydict) (score : Qc) : M unit :=
  fun w =>
    (Ok tt, set_task_queue (zadd_entries member score w.(task_queue)) w).

(** [client.zpopmin(QUEUE_KEY, count=1)] *)
Definition zpopmin : M (list zentry) :=
  fun w =>
    match w.(task_queue) with
    | [] => (Ok [], w)
    | e :: zs => (Ok [e], set_task_queue zs w)
    end.

(** [client.zcard(QUEUE_KEY)] *)
Definition zcard : M Z :=
  fun w => (Ok (Z.of_nat (length w.(task_queue))), w).

(** [client.hset(STATUS_KEY, field, value)] *)
Definition hset (field value : string) : M unit :=
  fun w => (Ok tt, set_task_status (<[field := value]> w.(task_status)) w).

(** [client.hget(STATUS_KEY, field)] *)
Definition hget (field : string) : M (option string) :=
  fun w => (Ok (w.(task_status) !! field), w).

(** [client.hvals(STATUS_KEY)] *)
Definition hvals : M (list string) :=
  fun w => (Ok ((map_to_list w.(task_status)).*2), w).
End commands.
End client.

(** ** common/redis_queue.py *)

Module redis_queue.
Section queue.
Context `{MemberOrder}.

(** The score as the number the expression denotes;
    [binary64._priority_score] is the double the code computes. *)
Definition _priority_score (priority : Z) (created_at : Qc) : Qc :=
  (- float_of_int (priority * 1000000) + created_at)%Qc.

Definition enqueue_task (task : Task) : M unit :=
  let score :=
    _priority_score task.(models.priority) task.(models.created_at) in
  client.zadd (models.to_dict task) score ;;
  client.hset task.(models.id) task.(models.status).

Definition dequeue_task : M (option Task) :=
  result <- client.zpopmin ;;
  match result with
  | [] => ret None
  | (task_json, _) :: _ =>
      task <- lift_result (models.from_dict task_json) ;;
      ret (Some task)
  end.

Definition get_queue_size : M Z := client.zcard.

Definition mark_task_in_progress (task_id : string) : M unit :=
  client.hset task_id "IN_PROGRESS".

Definition mark_task_completed (task_id : string) : M unit :=
  client.hset task_id "COMPLETED".

Definition mark_task_failed (task_id : string) : M unit :=
  client.hset task_id "FAILED".

Definition get_task_status (task_id : string) : M (option string) :=
  client.hget task_id.

(** A [dict] from status names to counts. *)
Fixpoint counts_increment (counts : list (string * Z)) (status : string)
    : list (string * Z) :=
  match counts with
  | [] => []
  | (k, n) :: counts' =>
      if decide (k = status) then (k, n + 1) :: counts'
      else (k, n) :: counts_increment counts' status
  end.

Definition counts_has (counts : list (string * Z)) (status : string)
    : bool :=
  bool_decide (status ∈ counts.*1).

(** The body of [for status in statuses]. *)
Definition count_step (counts : list (string * Z)) (status : string)
    : list (string * Z) :=
  if counts_has counts status
  then counts_increment counts status
  else counts.

Definition get_all_status_counts : M (list (string * Z)) :=
  statuses <- client.hvals ;;
  let counts :=
    [ ("QUEUED"%string, 0); ("IN_PROGRESS"%string, 0);
      ("COMPLETED"%string, 0); ("FAILED"%string, 0) ] in
  ret (fold_left count_step statuses counts).

Definition get_stats : M pydict :=
  queue_size <- get_queue_size ;;
  status_counts <- get_all_status_counts ;;
  ret [ ("queue_size"%string, JInt queue_size);
        ("status_counts"%string,
          JDict (map (fun kv => (kv.1, JInt kv.2)) status_counts)) ].
End queue.
End redis_queue.

(** ** worker/worker.py *)

Module worker.
Section loop.
Context `{MemberOrder}.

Definition FAILURE_PROBABILITY : Qc := Q2Qc (2 # 10).
Definition SLEEP_SECONDS : Qc := Q2Qc (1 # 1).
Definition IDLE_SLEEP_SECONDS : Qc := Q2Qc (5 # 10).
Definition MAX_RETRIES : Z := 3.

(** [2**n]; for a negative [n] Python answers with the float of the same
    value. *)
Definition two_pow (n : Z) : Qc := Q2Qc ((2 # 1) ^ n)%Q.

(** [draw] is the value [random.random()] returns in this call. *)
Definition execute_task (task : Task) (draw : Qc) : M bool :=
  time_sleep SLEEP_SECONDS ;;
  if bool_decide (draw < FAILURE_PROBABILITY)%Qc then ret false
  else ret true.

(** Assignments to the variable [task] and to fields of the object it
    names. *)
Definition assign_task (t : option Task) : M unit :=
  fun w => (Ok tt, set_local_task t w).

Definition with_status (s : string) (t : Task) : Task :=
  models.mkTask t.(models.id) t.(models.payload) t.(models.priority)
    t.(models.retries) s t.(models.created_at).

Definition with_retries (r : Z) (t : Task) : Task :=
  models.mkTask t.(models.id) t.(models.payload) t.(models.priority)
    r t.(models.status) t.(models.created_at).

(** One pass through the body of [while True]. *)
Definition loop_body (draw : Qc) : M unit :=
  queue_size <- redis_queue.get_queue_size ;;
  if bool_decide (queue_size = 0) then time_sleep IDLE_SLEEP_SECONDS
  else
    task <- redis_queue.dequeue_task ;;
    assign_task task ;;
    match task with
    | None => time_sleep IDLE_SLEEP_SECONDS
    | Some task =>
        success <- execute_task task draw ;;
        if success then
          let task := with_status "COMPLETED" task in
          assign_task (Some task) ;;
          call1 redis_queue.mark_task_completed []
        else
          let task := with_retries (task.(models.retries) + 1) task in
          assign_task (Some task) ;;
          if bool_decide (task.(models.retries) > MAX_RETRIES) then
            let task := with_status "FAILED" task in
            assign_task (Some task) ;;
            call1 redis_queue.mark_task_failed []
          else
            let delay := two_pow task.(models.retries) in
            time_sleep delay ;;
            redis_queue.enqueue_task task ;;
            let task := with_status "REQUEUED" task in
            assign_task (Some task)
    end.

(** What one iteration of the loop meets: the value [random.random()]
    would return in it, or the shutdown signal. *)
Inductive tick : Type :=
  | Draw (draw : Qc)
  | Interrupt.

Inductive loop_status : Type :=
  | Running   (** the iterations given are used up; the loop goes on *)
  | Stopped   (** the handler of [KeyboardInterrupt] ran *).

Fixpoint iterations (ticks : list tick) : M loop_status :=
  match ticks with
  | [] => ret Running
  | Interrupt :: _ => raise KeyboardInterrupt
  | Draw draw :: ticks' => loop_body draw ;; iterations ticks'
  end.

(** [try: ... except KeyboardInterrupt: ...] *)
Definition except_KeyboardInterrupt {A} (body handler : M A) : M A :=
  fun w =>
    match body w with
    | (Raised KeyboardInterrupt, w') => handler w'
    | other => other
    end.

Definition worker_loop (ticks : list tick) : M loop_status :=
  except_KeyboardInterrupt (iterations ticks) (ret Stopped).
End loop.
End worker.

(** ** main.py *)

Module main.
Section api.
Context `{MemberOrder}.

Record SubmitTaskRequest : Type := {
  payload : pydict;
  priority : option Z
}.

Record SubmitTaskResponse : Type := {
  task_id : string;
  status : string
}.

Record StatsResponse : Type := {
  total_tasks_submitted : Z;
  completed_tasks : Z;
  failed_tasks : Z;
  tasks_in_queue : Z
}.

(** [uuid] is the text of [uuid.uuid4()] and [now] the value of
    [time.time()] in this call. *)
Definition submit_task (request : SubmitTaskRequest) (uuid : string)
    (now : Qc) : M SubmitTaskResponse :=
  let payload := request.(payload) in
  let priority :=
    match request.(priority) with Some p => p | None => 0 end in
  let task := models.mkTask uuid payload priority 0 "pending" now in
  redis_queue.enqueue_task task ;;
  ret {| task_id := task.(models.id); status := task.(models.status) |}.

(** A response field annotated [int]. *)
Definition int_field (name : string) (v : json) : result Z :=
  match v with
  | JInt z => Ok z
  | _ => Raised (OutsideAnnotation name)
  end.

Definition get_system_stats : M StatsResponse :=
  raw_stats <- redis_queue.get_stats ;;
  v1 <- lift_result (subscript raw_stats "total_submitted") ;;
  v2 <- lift_result (subscript raw_stats "completed") ;;
  v3 <- lift_result (subscript raw_stats "failed") ;;
  v4 <- lift_result (subscript raw_stats "in_queue") ;;
  n1 <- lift_result (int_field "total_tasks_submitted" v1) ;;
  n2 <- lift_result (int_field "completed_tasks" v2) ;;
  n3 <- lift_result (int_field "failed_tasks" v3) ;;
  n4 <- lift_result (int_field "tasks_in_queue" v4) ;;
  ret {| total_tasks_submitted := n1; completed_tasks := n2;
         failed_tasks := n3; tasks_in_queue := n4 |}.
End api.
End main.

(** ** The score in double precision *)

Module binary64.

Definition prec : Z := 53.
Definition emax : Z := 1024.

(** The value of a double; [None] for an infinity and for a NaN. *)
Definition value (f : spec_float) : option Qc :=
  match f with
  | S754_zero _ => Some (Q2Qc 0)
  | S754_finite s m e =>
      Some (Q2Qc (inject_Z (cond_Zopp s (Zpos m)) * (2 # 1) ^ e))
  | S754_infinity _ => None
  | S754_nan => None
  end.

(** [float(z)] as [int + float] takes it: the nearest double, ties to
    even, and [OverflowError] when that is beyond the largest double. *)
Definition float_of_int (z : Z) : result spec_float :=
  match binary_normalize prec emax z 0 false with
  | S754_infinity _ => Raised OverflowError
  | f => Ok f
  end.

(** The double whose value is [q]. *)
Definition double_of (q : Qc) : spec_float :=
  SFdiv prec emax
    (binary_normalize prec emax (Qnum q) 0 false)
    (binary_normalize prec emax (Zpos (Qden q)) 0 false).

(** [-(priority * 1_000_000) + created_at]: the product and its negation
    are exact, the sum is the sum of two doubles. *)
Definition _priority_score (priority : Z) (created_at : Qc) : result Qc :=
  result_bind (float_of_int (- (priority * 1000000))) (fun left =>
  match value (SFadd prec emax left (double_of created_at)) with
  | Some score => Ok score
  | None => Raised (OutsideAnnotation "score")
  end).

Section queue.
Context `{MemberOrder}.

(** [enqueue_task], the score computed first. *)
Definition enqueue_task (task : Task) : M unit :=
  score <- lift_result
             (_priority_score task.(models.priority)
                task.(models.created_at)) ;;
  client.zadd (models.to_dict task) score ;;
  client.hset task.(models.id) task.(models.status).

(** [submit_task] over this [enqueue_task]. *)
Definition submit_task (request : main.SubmitTaskRequest) (uuid : string)
    (now : Qc) : M main.SubmitTaskResponse :=
  let payload := request.(main.payload) in
  let priority :=
    match request.(main.priority) with Some p => p | None => 0 end in
  let task := models.mkTask uuid payload priority 0 "pending" now in
  enqueue_task task ;;
  ret {| main.task_id := task.(models.id);
         main.status := task.(models.status) |}.
End queue.
End binary64.

(** ** Scenarios *)


(** Up to [n] calls of [dequeue_task], collected until one answers
    [None]. *)
Fixpoint dequeue_repeatedly (n : nat) : M (list Task) :=
  match n with
  | O => ret []
  | S n' =>
      task <- redis_queue.dequeue_task ;;
      match task with
      | None => ret []
      | Some task =>
          rest <- dequeue_repeatedly n' ;;
          ret (task :: rest)
      end
  end.

(** The entry [enqueue_task] writes for a task. *)
Definition entry_of (t : Task) : zentry :=
  (models.to_dict t,
   redis_queue._priority_score t.(models.priority) t.(models.created_at)).

Definition score_le (x y : zentry) : Prop := (x.2 <= y.2)%Qc.



(** A member order to run the model with: equal scores in order of
    arrival. *)
Definition arrival_order : MemberOrder := fun _ _ => true.

Definition empty_state : state := mkState [] ∅ [] None.

(** A task as [submit_task] makes it, and the same task after two failed
    attempts. *)
Definition pending_task : Task :=
  models.mkTask "t1" [] 5 0 "pending" (Q2Qc (100 # 1)).
Definition task_at_limit : Task :=
  models.mkTask "t1" [] 5 2 "pending" (Q2Qc (100 # 1)).
Definition task_past_limit : Task :=
  models.mkTask "t1" [] 5 3 "pending" (Q2Qc (100 # 1)).

(** The state in which [t] is the one task waiting, as [enqueue_task]
    leaves it from the empty store. *)
Definition waiting (t : Task) : state :=
  mkState [entry_of t] {[ t.(models.id) := t.(models.status) ]} [] None.


(** The number of fields of the status hash whose value is [s]. *)
Definition occurrences (s : string) (l : list string) : Z :=
  Z.of_nat (length (filter (fun v => v = s) l)).
Definition status_count (w : state) (s : string) : Z :=
  occurrences s (map_to_list w.(task_status)).*2.

(** Two tasks less than [10^6] seconds apart, the later one of the higher
    priority. *)
Definition early_low : Task :=
  models.mkTask "low" [] 6126933103096309 0 "pending" (Q2Qc (1700000000 # 1)).
Definition late_high : Task :=
  models.mkTask "high" [] 6126933103096310 0 "pending"
    (Q2Qc (1700841235 # 1)).

(** Two tasks of one priority whose timestamps are next to each other
    among the doubles: [2^-22] seconds apart. *)
Definition first_in : Task :=
  models.mkTask "b" [] 10000 0 "pending" (Q2Qc (1700000000 # 1)).
Definition second_in : Task :=
  models.mkTask "a" [] 10000 0 "pending"
    (Q2Qc (7130316800000001 # 4194304)).

(** A task whose priority times [10^6] is beyond the largest double. *)
Definition huge_priority_task : Task :=
  models.mkTask "t1" [] (10 ^ 303) 0 "pending" (Q2Qc (100 # 1)).

(** Draws of [random.random()] on the two sides of
    [FAILURE_PROBABILITY]. *)
Definition failing_draw : Qc := Q2Qc (1 # 10).
Definition passing_draw : Qc := Q2Qc (1 # 2).

(** The order and uniqueness Redis keeps in a sorted set. *)
Definition queue_ok (q : list zentry) : Prop :=
  StronglySorted score_le q /\ NoDup q.*1.

(** The statuses [get_all_status_counts] keeps a count for. *)
Definition counted_statuses : list string :=
  [ "QUEUED"%string; "IN_PROGRESS"%string; "COMPLETED"%string;
    "FAILED"%string ].

(** The keys [from_dict] reads. *)
Definition task_keys : list string :=
  [ "id"%string; "payload"%string; "priority"%string; "retries"%string;
    "status"%string; "created_at"%string ].

(** * Properties *)

(** ** Wire form *)

Lemma asdict_inner_id (obj : json) : models.asdict_inner obj = obj.
Proof.
  induction obj as [| | | | | l IH | d IH] using json_nested_ind;
    simpl; try reflexivity; f_equal.
  - induction IH as [| x l Hx _ IHl]; simpl; [done | by rewrite Hx, IHl].
  - induction IH as [| [k x] d Hx _ IHd]; simpl; [done |].
    simpl in Hx. by rewrite Hx, IHd.
Qed.

Lemma from_dict_to_dict (t : Task) : models.from_dict (models.to_dict t) = Ok t.
Proof.
  destruct t as [i p pr r s c].
  unfold models.from_dict, models.to_dict. cbn [models.payload].
  rewrite (asdict_inner_id (JDict p)).
  reflexivity.
Qed.

(** ** Lists *)

Section filter_facts.
Context {A : Type} (P : A -> Prop) `{!forall x, Decision (P x)}.

Lemma Forall_filter_keep (Q : A -> Prop) (l : list A) :
  Forall Q l -> Forall Q (filter P l).
Proof.
  rewrite !Forall_forall. intros HQ x Hx.
  apply list_elem_of_filter in Hx as [_ Hx]. by apply HQ.
Qed.



End filter_facts.


(** ** Sorted set *)

Section zset_facts.
Context `{MemberOrder}.

Lemma entry_before_true (x e : zentry) :
  client.entry_before x e = true -> score_le x e.
Proof.
  unfold client.entry_before, score_le.
  rewrite orb_true_iff, andb_true_iff, !bool_decide_eq_true.
  intros [Hlt | [Heq _]].
  - by apply Qclt_le_weak.
  - rewrite Heq. apply Qcle_refl.
Qed.

Lemma entry_before_false (x e : zentry) :
  client.entry_before x e = false -> score_le e x.
Proof.
  unfold client.entry_before, score_le.
  rewrite orb_false_iff, bool_decide_eq_false.
  intros [Hlt _]. by apply Qcnot_lt_le.
Qed.

Lemma zset_insert_perm (e : zentry) (zs : list zentry) :
  client.zset_insert e zs ≡ₚ e :: zs.
Proof.
  induction zs as [| x zs IH]; simpl; [done |].
  destruct (client.entry_before x e); [| done].
  rewrite IH. apply Permutation_swap.
Qed.

Lemma zset_insert_sorted (e : zentry) (zs : list zentry) :
  StronglySorted score_le zs ->
  StronglySorted score_le (client.zset_insert e zs).
Proof.
  induction zs as [| x zs IH]; simpl; intros Hs.
  - repeat constructor.
  - apply StronglySorted_inv in Hs as [Hs Hx].
    destruct (client.entry_before x e) eqn:Hb.
    + constructor; [by apply IH |].
      rewrite zset_insert_perm. constructor; [| done].
      by apply entry_before_true.
    + apply entry_before_false in Hb.
      constructor; [by constructor |].
      constructor; [done |].
      eapply Forall_impl; [exact Hx |].
      intros y Hy. unfold score_le in *. by eapply Qcle_trans.
Qed.

Lemma filter_sorted (P : zentry -> Prop) `{!forall x, Decision (P x)}
    (zs : list zentry) :
  StronglySorted score_le zs -> StronglySorted score_le (filter P zs).
Proof.
  induction 1 as [| x zs Hs IH Hx]; [constructor |].
  rewrite filter_cons. destruct (decide (P x)); [| done].
  constructor; [done |]. by apply Forall_filter_keep.
Qed.

Lemma zadd_entries_sorted (m : pydict) (s : Qc) (zs : list zentry) :
  StronglySorted score_le zs ->
  StronglySorted score_le (client.zadd_entries m s zs).
Proof.
  intros Hs. unfold client.zadd_entries.
  by apply zset_insert_sorted, filter_sorted.
Qed.

Lemma zadd_entries_perm (m : pydict) (s : Qc) (zs : list zentry) :
  client.zadd_entries m s zs
  ≡ₚ (m, s) :: filter (fun x => x.1 <> m) zs.
Proof. apply zset_insert_perm. Qed.


End zset_facts.

(** ** Queue operations *)


Section queue_facts.
Context `{MemberOrder}.

Lemma enqueue_task_run (t : Task) (w : state) :
  redis_queue.enqueue_task t w
  = (Ok tt,
     mkState
       (client.zadd_entries (entry_of t).1 (entry_of t).2 w.(task_queue))
       (<[t.(models.id) := t.(models.status)]> w.(task_status))
       w.(slept) w.(local_task)).
Proof. reflexivity. Qed.


Lemma dequeue_task_head (t : Task) (s : Qc) (zs : list zentry) (w : state) :
  w.(task_queue) = (models.to_dict t, s) :: zs ->
  redis_queue.dequeue_task w = (Ok (Some t), set_task_queue zs w).
Proof.
  intros E. unfold redis_queue.dequeue_task, bind, client.zpopmin.
  rewrite E. unfold lift_result. by rewrite from_dict_to_dict.
Qed.






End queue_facts.

(** * The claims *)

Section claims.
Context `{MemberOrder}.

(** C9.  A task written to its wire form with [to_dict] and read back
    with [from_dict] is read back without error, and the task read has
    the same [id], [payload], [priority], [retries], [status] and
    [created_at] as the original. *)
Theorem task_wire_round_trip (t : Task) :
  exists t',
    models.from_dict (models.to_dict t) = Ok t'
    /\ t'.(models.id) = t.(models.id)
    /\ t'.(models.payload) = t.(models.payload)
    /\ t'.(models.priority) = t.(models.priority)
    /\ t'.(models.retries) = t.(models.retries)
    /\ t'.(models.status) = t.(models.status)
    /\ t'.(models.created_at) = t.(models.created_at).
Proof. exists t. by rewrite from_dict_to_dict. Qed.

End claims.

(** ** One iteration of the worker *)

Section worker_facts.
Context `{MemberOrder}.

Lemma loop_body_idle (w : state) (draw : Qc) :
  w.(task_queue) = [] ->
  worker.loop_body draw w
  = (Ok tt, set_slept (w.(slept) ++ [worker.IDLE_SLEEP_SECONDS]) w).
Proof.
  intros E. unfold worker.loop_body, bind at 1.
  unfold redis_queue.get_queue_size, client.zcard. by rewrite E.
Qed.

Lemma loop_body_claims (t : Task) (s : Qc) (zs : list zentry) (w : state)
    (draw : Qc) :
  w.(task_queue) = (models.to_dict t, s) :: zs ->
  worker.loop_body draw w
  = (success <- worker.execute_task t draw ;;
     if success then
       let task := worker.with_status "COMPLETED" t in
       worker.assign_task (Some task) ;;
       call1 redis_queue.mark_task_completed []
     else
       let task := worker.with_retries (t.(models.retries) + 1) t in
       worker.assign_task (Some task) ;;
       if bool_decide (task.(models.retries) > worker.MAX_RETRIES) then
         let task := worker.with_status "FAILED" task in
         worker.assign_task (Some task) ;;
         call1 redis_queue.mark_task_failed []
       else
         let delay := worker.two_pow task.(models.retries) in
         time_sleep delay ;;
         redis_queue.enqueue_task task ;;
         let task := worker.with_status "REQUEUED" task in
         worker.assign_task (Some task))
      (mkState zs w.(task_status) w.(slept) (Some t)).
Proof.
  intros E. unfold worker.loop_body, bind at 1.
  unfold redis_queue.get_queue_size, client.zcard. rewrite E.
  cbn [length]. rewrite bool_decide_eq_false_2 by lia.
  unfold bind at 1. rewrite (dequeue_task_head t s zs w E).
  reflexivity.
Qed.

Lemma loop_body_success (t : Task) (s : Qc) (zs : list zentry) (w : state)
    (draw : Qc) :
  w.(task_queue) = (models.to_dict t, s) :: zs ->
  ~ (draw < worker.FAILURE_PROBABILITY)%Qc ->
  worker.loop_body draw w
  = (Raised TypeError,
     mkState zs w.(task_status) (w.(slept) ++ [worker.SLEEP_SECONDS])
       (Some (worker.with_status "COMPLETED" t))).
Proof.
  intros E Hd. rewrite (loop_body_claims t s zs w draw E).
  unfold bind at 1, worker.execute_task, bind at 1, time_sleep.
  by rewrite bool_decide_eq_false_2.
Qed.


(** The loop does not outlive a task that succeeds, whatever the later
    iterations would have met. *)
Lemma worker_loop_success (t : Task) (s : Qc) (zs : list zentry) (w : state)
    (draw : Qc) (ticks : list worker.tick) :
  w.(task_queue) = (models.to_dict t, s) :: zs ->
  ~ (draw < worker.FAILURE_PROBABILITY)%Qc ->
  worker.worker_loop (worker.Draw draw :: ticks) w
  = (Raised TypeError,
     mkState zs w.(task_status) (w.(slept) ++ [worker.SLEEP_SECONDS])
       (Some (worker.with_status "COMPLETED" t))).
Proof.
  intros E Hd. unfold worker.worker_loop, worker.except_KeyboardInterrupt.
  cbn [worker.iterations]. unfold bind at 1.
  by rewrite (loop_body_success t s zs w draw E Hd).
Qed.

Lemma zadd_entries_nil (m : pydict) (s : Qc) :
  client.zadd_entries m s [] = [(m, s)].
Proof. reflexivity. Qed.

End worker_facts.


Lemma dequeue_task_keeps_status (w : state) :
  (redis_queue.dequeue_task w).2.(task_status) = w.(task_status).
Proof.
  unfold redis_queue.dequeue_task, bind, client.zpopmin.
  destruct w as [[| [m s] zs] h sl lt]; simpl; [done |].
  unfold lift_result. by destruct (models.from_dict m).
Qed.

Section worker_claims.
Context `{MemberOrder}.


End worker_claims.

(** ** Statistics *)

Section stats_facts.
Context `{MemberOrder}.

Lemma occurrences_cons (s x : string) (l : list string) :
  occurrences s (x :: l)
  = (if decide (x = s) then 1 else 0) + occurrences s l.
Proof.
  unfold occurrences. rewrite filter_cons.
  destruct (decide (x = s)); cbn [length]; lia.
Qed.

Lemma count_step_four (a b c d : Z) (x : string) :
  redis_queue.count_step
    [ ("QUEUED"%string, a); ("IN_PROGRESS"%string, b);
      ("COMPLETED"%string, c); ("FAILED"%string, d) ] x
  = [ ("QUEUED"%string, a + if decide (x = "QUEUED"%string) then 1 else 0);
      ("IN_PROGRESS"%string,
        b + if decide (x = "IN_PROGRESS"%string) then 1 else 0);
      ("COMPLETED"%string,
        c + if decide (x = "COMPLETED"%string) then 1 else 0);
      ("FAILED"%string, d + if decide (x = "FAILED"%string) then 1 else 0) ].
Proof.
  unfold redis_queue.count_step, redis_queue.counts_has.
  cbn [fmap list_fmap fst redis_queue.counts_increment].
  destruct (decide (x = "QUEUED"%string)) as [-> | N1].
  { rewrite bool_decide_eq_true_2 by set_solver.
    rewrite decide_True by done. repeat rewrite decide_False by done.
    by rewrite !Z.add_0_r. }
  destruct (decide (x = "IN_PROGRESS"%string)) as [-> | N2].
  { rewrite bool_decide_eq_true_2 by set_solver.
    rewrite decide_False by done. rewrite decide_True by done.
    repeat rewrite decide_False by done. by rewrite !Z.add_0_r. }
  destruct (decide (x = "COMPLETED"%string)) as [-> | N3].
  { rewrite bool_decide_eq_true_2 by set_solver.
    do 2 rewrite decide_False by done. rewrite decide_True by done.
    by rewrite !Z.add_0_r. }
  destruct (decide (x = "FAILED"%string)) as [-> | N4].
  { rewrite bool_decide_eq_true_2 by set_solver.
    do 3 rewrite decide_False by done. rewrite decide_True by done.
    by rewrite !Z.add_0_r. }
  rewrite bool_decide_eq_false_2; [by rewrite !Z.add_0_r |].
  intros Hin.
  repeat (apply elem_of_cons in Hin as [Hin | Hin]; [done |]).
  by apply elem_of_nil in Hin.
Qed.

Lemma count_fold_four (l : list string) (a b c d : Z) :
  fold_left redis_queue.count_step l
    [ ("QUEUED"%string, a); ("IN_PROGRESS"%string, b);
      ("COMPLETED"%string, c); ("FAILED"%string, d) ]
  = [ ("QUEUED"%string, a + occurrences "QUEUED" l);
      ("IN_PROGRESS"%string, b + occurrences "IN_PROGRESS" l);
      ("COMPLETED"%string, c + occurrences "COMPLETED" l);
      ("FAILED"%string, d + occurrences "FAILED" l) ].
Proof.
  revert a b c d. induction l as [| x l IH]; intros a b c d.
  - cbn [fold_left]. unfold occurrences. rewrite !filter_nil.
    cbn [length]. by rewrite !Z.add_0_r.
  - cbn [fold_left]. rewrite count_step_four, IH, !occurrences_cons.
    by rewrite !Z.add_assoc.
Qed.

(** What [get_stats] answers with, in full. *)
Lemma get_stats_run (w : state) :
  redis_queue.get_stats w
  = (Ok [ ("queue_size"%string, JInt (Z.of_nat (length w.(task_queue))));
          ("status_counts"%string,
            JDict [ ("QUEUED"%string, JInt (status_count w "QUEUED"));
                    ("IN_PROGRESS"%string,
                      JInt (status_count w "IN_PROGRESS"));
                    ("COMPLETED"%string, JInt (status_count w "COMPLETED"));
                    ("FAILED"%string, JInt (status_count w "FAILED")) ]) ],
     w).
Proof.
  unfold redis_queue.get_stats, bind, redis_queue.get_queue_size,
    client.zcard, redis_queue.get_all_status_counts, bind, client.hvals,
    ret.
  rewrite count_fold_four. reflexivity.
Qed.

(** X14.  [get_system_stats] raises [KeyError] for ["total_submitted"] in
    every state and changes nothing: it reads keys that [get_stats] does
    not write. *)
Lemma get_system_stats_raises (w : state) :
  main.get_system_stats w = (Raised (KeyError "total_submitted"), w).
Proof.
  unfold main.get_system_stats, bind at 1. by rewrite get_stats_run.
Qed.

(** X23.  [get_stats] never raises and leaves the state as it is.  It
    answers with the number of entries in the queue under
    ["queue_size"] and, under ["status_counts"], with counts for the
    four statuses [QUEUED], [IN_PROGRESS], [COMPLETED] and [FAILED], each
    the number of fields of the status hash that hold that very
    string. *)
Theorem get_stats_counts (w : state) :
  exists counts : pydict,
    redis_queue.get_stats w
    = (Ok [ ("queue_size"%string,
              JInt (Z.of_nat (length w.(task_queue))));
            ("status_counts"%string, JDict counts) ],
       w)
    /\ counts.*1
       = [ "QUEUED"%string; "IN_PROGRESS"%string; "COMPLETED"%string;
           "FAILED"%string ]
    /\ forall s, s ∈ counts.*1 ->
         dict_lookup counts s = Some (JInt (status_count w s)).
Proof.
  eexists. split; [apply get_stats_run |]. split; [reflexivity |].
  cbn [fmap list_fmap fst]. intros s Hs.
  repeat (apply elem_of_cons in Hs as [-> | Hs]; [reflexivity |]).
  by apply elem_of_nil in Hs.
Qed.
End stats_facts.

(** ** The worker at concrete inputs *)

(** C2.  [task_at_limit] has [retries = MAX_RETRIES - 1].  It is the one
    task waiting, it is claimed and its execution fails.  The iteration
    ends without an exception, the queue then holds the task again with
    [retries = 3], the worker has slept 8 seconds for it, its status in
    the worker is [REQUEUED] and the status hash still says [pending]:
    the task has not failed for good and has been put back. *)
Theorem retry_at_limit_requeues :
  task_at_limit.(models.retries) = worker.MAX_RETRIES - 1
  /\ @worker.loop_body arrival_order failing_draw (waiting task_at_limit)
     = (Ok tt,
        mkState [entry_of task_past_limit] {[ "t1"%string := "pending"%string ]}
          [worker.SLEEP_SECONDS; float_of_int 8]
          (Some (worker.with_status "REQUEUED" task_past_limit))).
Proof. split; reflexivity. Qed.

(** C5.  [pending_task] is the one task waiting, it is claimed and its
    execution fails.  The entry put back has [retries = 1], the
    [created_at] and the other fields of the task claimed, and the status
    [pending] that the task was claimed with; the status hash is written
    with [pending] too.  [REQUEUED] is set on the worker's own object
    after the insert and reaches neither. *)
Theorem requeue_keeps_claimed_status :
  @worker.loop_body arrival_order failing_draw (waiting pending_task)
  = (Ok tt,
     mkState
       [entry_of (models.mkTask "t1" [] 5 1 "pending" (Q2Qc (100 # 1)))]
       {[ "t1"%string := "pending"%string ]}
       [worker.SLEEP_SECONDS; float_of_int 2]
       (Some (models.mkTask "t1" [] 5 1 "REQUEUED" (Q2Qc (100 # 1))))).
Proof. reflexivity. Qed.

(** C6.  A task is submitted to the empty store and claimed with
    [dequeue_task].  The call answers with the task, and right after it
    the status hash holds [pending] for the task, as before the call. *)
Theorem claim_leaves_status :
  let request := {| main.payload := []; main.priority := Some 5 |} in
  let w :=
    (@main.submit_task arrival_order request "t1" (Q2Qc (100 # 1))
       empty_state).2 in
  w = waiting pending_task
  /\ redis_queue.dequeue_task w
     = (Ok (Some pending_task),
        mkState [] {[ "t1"%string := "pending"%string ]} [] None)
  /\ (redis_queue.dequeue_task w).2.(task_status)
       !! "t1"%string
     = Some "pending"%string.
Proof. repeat split; reflexivity. Qed.

(** C7.  With one task waiting and no shutdown signal, an execution that
    succeeds ends [worker_loop] with a [TypeError] in its first
    iteration; so does an execution that fails with the retries used
    up. *)
Theorem handled_task_stops_worker :
  @worker.worker_loop arrival_order
    [worker.Draw passing_draw; worker.Draw passing_draw]
    (waiting pending_task)
  = (Raised TypeError,
     mkState [] {[ "t1"%string := "pending"%string ]} [worker.SLEEP_SECONDS]
       (Some (worker.with_status "COMPLETED" pending_task)))
  /\ @worker.worker_loop arrival_order
       [worker.Draw failing_draw; worker.Draw failing_draw]
       (waiting task_past_limit)
     = (Raised TypeError,
        mkState [] {[ "t1"%string := "pending"%string ]} [worker.SLEEP_SECONDS]
          (Some (worker.with_status "FAILED"
                   (worker.with_retries 4 task_past_limit)))).
Proof. split; reflexivity. Qed.

(** ** Instances of the theorems with hypotheses *)



(** * Further properties of the code *)

(** ** common/models.py *)

(** X1.  [from_dict] on a dictionary that lacks ["id"] or ["created_at"]
    raises [KeyError] for the first of the two that is missing, ["id"]
    before ["created_at"], whatever the other keys hold. *)
Theorem from_dict_missing_key (data : pydict) :
  dict_lookup data "id" = None \/ dict_lookup data "created_at" = None ->
  models.from_dict data
  = Raised (KeyError (match dict_lookup data "id" with
                      | Some _ => "created_at"
                      | None => "id"
                      end)).
Proof.
  unfold models.from_dict, result_bind, subscript.
  destruct (dict_lookup data "id") as [v |]; [| done].
  intros [? | ->]; done.
Qed.

(** X2.  [from_dict] on a dictionary that holds a string under ["id"] and
    a float under ["created_at"] and none of the four other keys answers
    with the task of an empty payload, priority 0, no retries and status
    [pending]. *)
Theorem from_dict_defaults (data : pydict) (i : string) (c : Qc) :
  dict_lookup data "id" = Some (JStr i) ->
  dict_lookup data "created_at" = Some (JFloat c) ->
  dict_lookup data "payload" = None ->
  dict_lookup data "priority" = None ->
  dict_lookup data "retries" = None ->
  dict_lookup data "status" = None ->
  models.from_dict data = Ok (models.mkTask i [] 0 0 "pending" c).
Proof.
  intros Hi Hc Hp Hpr Hr Hs.
  unfold models.from_dict, result_bind, subscript, dict_get.
  by rewrite Hi, Hc, Hp, Hpr, Hr, Hs.
Qed.

(** X3.  [from_dict] reads the six keys of a task and nothing else: two
    dictionaries that answer alike on these keys, whatever other keys
    they hold and in whatever order, give the same task or the same
    error. *)
Theorem from_dict_reads_task_keys (d1 d2 : pydict) :
  (forall key, key ∈ task_keys -> dict_lookup d1 key = dict_lookup d2 key) ->
  models.from_dict d1 = models.from_dict d2.
Proof.
  intros Hk. unfold models.from_dict, subscript, dict_get.
  rewrite !(Hk _) by (unfold task_keys; set_solver).
  reflexivity.
Qed.

(** ** common/redis_queue.py *)


Section more_queue_facts.
Context `{MemberOrder}.


Lemma zadd_entries_members (m : pydict) (s : Qc) (zs : list zentry) :
  NoDup zs.*1 -> NoDup (client.zadd_entries m s zs).*1.
Proof.
  intros Hnd. rewrite zadd_entries_perm, fmap_cons. apply NoDup_cons. split.
  - intros Hin. apply list_elem_of_fmap in Hin as (e & He1 & He2).
    apply list_elem_of_filter in He2 as [He2 _]. by apply He2.
  - eapply sublist_NoDup; [exact Hnd |].
    apply fmap_sublist, sublist_filter.
Qed.



(** X6.  [dequeue_task] takes the first entry off the queue, also when it
    raises on it, and writes nothing else: the status hash, the sleeps
    and the worker's variable are as before.  On an empty queue it
    answers [None]. *)
Theorem dequeue_task_frame (w : state) :
  (redis_queue.dequeue_task w).2 = set_task_queue (tail w.(task_queue)) w
  /\ (w.(task_queue) = [] -> (redis_queue.dequeue_task w).1 = Ok None).
Proof.
  unfold redis_queue.dequeue_task, bind, client.zpopmin.
  destruct w as [[| [m s] zs] h sl lt]; cbn [task_queue tail]; [done |].
  unfold lift_result. split; [| done].
  by destruct (models.from_dict m).
Qed.
End more_queue_facts.

Lemma from_dict_missing (data : pydict) :
  dict_lookup data "id" = None \/ dict_lookup data "created_at" = None ->
  exists key, models.from_dict data = Raised (KeyError key).
Proof.
  unfold models.from_dict, result_bind, subscript.
  destruct (dict_lookup data "id") as [v |]; [| by exists "id"%string].
  intros [? | ->]; [done | by exists "created_at"%string].
Qed.

Section worker_unfolded.
Context `{MemberOrder}.

(** One iteration, case by case on what the queue holds. *)
Lemma loop_body_unfold (w : state) (draw : Qc) :
  worker.loop_body draw w
  = match w.(task_queue) with
    | [] => (Ok tt, set_slept (w.(slept) ++ [worker.IDLE_SLEEP_SECONDS]) w)
    | (m, _) :: zs =>
        match models.from_dict m with
        | Raised e => (Raised e, set_task_queue zs w)
        | Ok t =>
            let sl := w.(slept) ++ [worker.SLEEP_SECONDS] in
            let t1 := worker.with_retries (t.(models.retries) + 1) t in
            if bool_decide (draw < worker.FAILURE_PROBABILITY)%Qc then
              if bool_decide (t.(models.retries) + 1 > worker.MAX_RETRIES)
              then
                (Raised TypeError,
                 mkState zs w.(task_status) sl
                   (Some (worker.with_status "FAILED" t1)))
              else
                (Ok tt,
                 mkState
                   (client.zadd_entries (entry_of t1).1 (entry_of t1).2 zs)
                   (<[t.(models.id) := t.(models.status)]> w.(task_status))
                   (sl ++ [worker.two_pow (t.(models.retries) + 1)])
                   (Some (worker.with_status "REQUEUED" t1)))
            else
              (Raised TypeError,
               mkState zs w.(task_status) sl
                 (Some (worker.with_status "COMPLETED" t)))
        end
    end.
Proof.
  destruct w as [[| [m s] zs] h sl lt]; [reflexivity |].
  unfold worker.loop_body, bind at 1.
  unfold redis_queue.get_queue_size, client.zcard.
  cbn [task_queue length]. rewrite bool_decide_eq_false_2 by lia.
  unfold bind at 1, redis_queue.dequeue_task, bind at 1, client.zpopmin.
  cbn [task_queue]. unfold bind at 1, lift_result.
  destruct (models.from_dict m) as [t | e]; [| reflexivity].
  cbn [ret]. unfold bind at 1, worker.assign_task at 1.
  unfold bind at 1, worker.execute_task, bind at 1, time_sleep.
  cbn [slept set_slept set_local_task task_queue task_status local_task].
  destruct (bool_decide (draw < worker.FAILURE_PROBABILITY)%Qc);
    cbn [ret]; cbv zeta; [| reflexivity].
  unfold bind at 1, worker.assign_task at 1.
  cbn [worker.with_retries models.retries].
  destruct (bool_decide (t.(models.retries) + 1 > worker.MAX_RETRIES));
    [reflexivity |].
  unfold bind, time_sleep. rewrite enqueue_task_run.
  unfold worker.assign_task, set_slept, set_local_task.
  cbn [task_queue task_status slept local_task].
  reflexivity.
Qed.


(** X8.  A queue that is sorted by score and holds no member twice stays
    so under [enqueue_task], under [dequeue_task] and under an iteration
    of the worker, however the iteration ends. *)
Theorem queue_ok_kept (t : Task) (w : state) (draw : Qc) :
  queue_ok w.(task_queue) ->
  queue_ok (redis_queue.enqueue_task t w).2.(task_queue)
  /\ queue_ok (redis_queue.dequeue_task w).2.(task_queue)
  /\ queue_ok (worker.loop_body draw w).2.(task_queue).
Proof.
  intros [Hs Hnd].
  assert (Htl : queue_ok (tail w.(task_queue))).
  { destruct (task_queue w) as [| e q]; [done |]. cbn [tail].
    apply StronglySorted_inv in Hs as [Hs _].
    rewrite fmap_cons in Hnd. by apply NoDup_cons in Hnd as [_ Hnd]. }
  split; [| split].
  - rewrite enqueue_task_run. cbn [snd task_queue].
    split; [by apply zadd_entries_sorted | by apply zadd_entries_members].
  - unfold redis_queue.dequeue_task, bind, client.zpopmin.
    destruct w as [[| [m s] zs] h sl lt]; cbn [task_queue tail] in *;
      [done |].
    unfold lift_result. by destruct (models.from_dict m).
  - rewrite loop_body_unfold.
    destruct w as [[| [m s] zs] h sl lt]; cbn [task_queue tail] in *;
      [done |].
    destruct (models.from_dict m) as [t0 | e]; [| done]. cbv zeta.
    destruct (bool_decide (draw < worker.FAILURE_PROBABILITY)%Qc); [| done].
    destruct (bool_decide (t0.(models.retries) + 1 > worker.MAX_RETRIES));
      [done |].
    cbn [snd task_queue]. destruct Htl as [Hs' Hnd'].
    split; [by apply zadd_entries_sorted | by apply zadd_entries_members].
Qed.

(** X9.  When the first entry of the queue is a dictionary without ["id"]
    or without ["created_at"], [dequeue_task] raises a [KeyError] after
    the entry has left the queue, and an iteration of [worker_loop] that
    meets it ends the loop with that error: the entry is gone and nothing
    else is written. *)
Theorem malformed_entry_is_lost (m : pydict) (s : Qc) (zs : list zentry)
    (w : state) (draw : Qc) (ticks : list worker.tick) :
  w.(task_queue) = (m, s) :: zs ->
  dict_lookup m "id" = None \/ dict_lookup m "created_at" = None ->
  exists key,
    redis_queue.dequeue_task w = (Raised (KeyError key), set_task_queue zs w)
    /\ worker.worker_loop (worker.Draw draw :: ticks) w
       = (Raised (KeyError key), set_task_queue zs w).
Proof.
  intros E Hm. destruct (from_dict_missing m Hm) as (key & Hkey).
  exists key. split.
  - unfold redis_queue.dequeue_task, bind, client.zpopmin.
    rewrite E. unfold lift_result. by rewrite Hkey.
  - unfold worker.worker_loop, worker.except_KeyboardInterrupt.
    cbn [worker.iterations]. unfold bind at 1.
    rewrite loop_body_unfold, E, Hkey. reflexivity.
Qed.
End worker_unfolded.

(** ** Status hash and counts *)

Lemma occurrences_perm (s : string) (l k : list string) :
  l ≡ₚ k -> occurrences s l = occurrences s k.
Proof. intros E. unfold occurrences. by rewrite E. Qed.

Lemma occurrences_nonneg (s : string) (l : list string) :
  0 <= occurrences s l.
Proof. unfold occurrences. lia. Qed.

(** Writing one field moves one unit from the count of the status it held
    to the count of the status written. *)
Lemma status_count_hset (field value s : string) (w : state) :
  status_count (set_task_status (<[field := value]> w.(task_status)) w) s
  = status_count w s
    - (if decide (w.(task_status) !! field = Some s) then 1 else 0)
    + (if decide (value = s) then 1 else 0).
Proof.
  unfold status_count. cbn [task_status set_task_status].
  destruct (w.(task_status) !! field) as [old |] eqn:E.
  - rewrite <- (insert_delete_eq w.(task_status)).
    rewrite (occurrences_perm s _ _
               (fmap_Permutation snd _ _
                  (map_to_list_insert _ field value
                     (lookup_delete_eq _ _)))).
    rewrite <- (occurrences_perm s _ _
                  (fmap_Permutation snd _ _
                     (map_to_list_delete _ field old E))).
    rewrite !fmap_cons, !occurrences_cons. cbn [snd].
    destruct (decide (Some old = Some s)) as [[= ->] | N].
    + rewrite (decide_True (P := s = s)) by done. lia.
    + rewrite (decide_False (P := old = s)) by congruence. lia.
  - rewrite (occurrences_perm s _ _
               (fmap_Permutation snd _ _
                  (map_to_list_insert _ field value E))).
    rewrite fmap_cons, occurrences_cons. cbn [snd].
    rewrite (decide_False (P := None = Some s)) by done. lia.
Qed.

Lemma counted_sum_le (l : list string) :
  occurrences "QUEUED" l + occurrences "IN_PROGRESS" l
  + occurrences "COMPLETED" l + occurrences "FAILED" l
  <= Z.of_nat (length l)
  /\ (occurrences "QUEUED" l + occurrences "IN_PROGRESS" l
      + occurrences "COMPLETED" l + occurrences "FAILED" l
      = Z.of_nat (length l)
      <-> Forall (fun st => st ∈ counted_statuses) l).
Proof.
  induction l as [| x l [IHle IHeq]].
  - split; [done |]. split; [constructor | done].
  - rewrite !occurrences_cons. cbn [length].
    assert (Hx : (if decide (x = "QUEUED"%string) then 1 else 0)
                 + (if decide (x = "IN_PROGRESS"%string) then 1 else 0)
                 + (if decide (x = "COMPLETED"%string) then 1 else 0)
                 + (if decide (x = "FAILED"%string) then 1 else 0)
                 = if bool_decide (x ∈ counted_statuses) then 1 else 0).
    { unfold counted_statuses.
      destruct (decide (x = "QUEUED"%string)) as [-> | N1]; [done |].
      destruct (decide (x = "IN_PROGRESS"%string)) as [-> | N2]; [done |].
      destruct (decide (x = "COMPLETED"%string)) as [-> | N3]; [done |].
      destruct (decide (x = "FAILED"%string)) as [-> | N4]; [done |].
      rewrite bool_decide_eq_false_2; [done |].
      intros Hin.
      repeat (apply elem_of_cons in Hin as [Hin | Hin]; [done |]).
      by apply elem_of_nil in Hin. }
    rewrite Forall_cons.
    destruct (bool_decide_reflect (x ∈ counted_statuses)) as [Hin | Hout].
    + split; [lia |]. rewrite <- IHeq. split; [intros; split; [done | lia] |].
      intros [_ ?]. lia.
    + split; [lia |]. split; [intros; lia | by intros [? _]].
Qed.

Section status_facts.
Context `{MemberOrder}.


(** X11.  [get_all_status_counts] never raises and changes nothing.  Its
    four counts are not negative and add up to at most the number of
    fields of the status hash, and to that number exactly when every
    field holds one of [QUEUED], [IN_PROGRESS], [COMPLETED], [FAILED]. *)
Theorem status_counts_bounded (w : state) :
  exists a b c d,
    redis_queue.get_all_status_counts w
    = (Ok [ ("QUEUED"%string, a); ("IN_PROGRESS"%string, b);
            ("COMPLETED"%string, c); ("FAILED"%string, d) ], w)
    /\ 0 <= a /\ 0 <= b /\ 0 <= c /\ 0 <= d
    /\ a + b + c + d <= Z.of_nat (size w.(task_status))
    /\ (a + b + c + d = Z.of_nat (size w.(task_status))
        <-> forall task_id st,
              w.(task_status) !! task_id = Some st ->
              st ∈ counted_statuses).
Proof.
  eexists _, _, _, _. split.
  { unfold redis_queue.get_all_status_counts, bind, client.hvals, ret.
    by rewrite count_fold_four. }
  rewrite !Z.add_0_l.
  repeat (split; [apply occurrences_nonneg |]).
  destruct (counted_sum_le (map_to_list w.(task_status)).*2) as [Hle Heq].
  rewrite length_fmap, length_map_to_list in Hle, Heq.
  split; [exact Hle |]. rewrite Heq, Forall_fmap, Forall_forall. split.
  - intros Hall task_id st Hst.
    apply (Hall (task_id, st)). by apply elem_of_map_to_list.
  - intros Hall [task_id st] Hin. apply (Hall task_id).
    by apply elem_of_map_to_list.
Qed.

(** X12.  Each of [mark_task_in_progress], [mark_task_completed] and
    [mark_task_failed] takes one from the number of fields holding the
    status the task had, if it had one, and adds one to the number
    holding the status written; the number for every other status is as
    before. *)
Theorem mark_task_moves_count (task_id s : string) (w : state) :
  let had := if decide (w.(task_status) !! task_id = Some s) then 1 else 0 in
  status_count (redis_queue.mark_task_in_progress task_id w).2 s
  = status_count w s - had
    + (if decide ("IN_PROGRESS"%string = s) then 1 else 0)
  /\ status_count (redis_queue.mark_task_completed task_id w).2 s
     = status_count w s - had
       + (if decide ("COMPLETED"%string = s) then 1 else 0)
  /\ status_count (redis_queue.mark_task_failed task_id w).2 s
     = status_count w s - had
       + (if decide ("FAILED"%string = s) then 1 else 0).
Proof.
  unfold redis_queue.mark_task_in_progress, redis_queue.mark_task_completed,
    redis_queue.mark_task_failed, client.hset.
  cbn [snd]. by rewrite !status_count_hset.
Qed.
End status_facts.


(** ** worker/worker.py *)

Section more_worker_facts.
Context `{MemberOrder}.

Lemma iterations_app (ticks more : list worker.tick) (w w' : state) :
  worker.iterations ticks w = (Ok worker.Running, w') ->
  worker.iterations (ticks ++ more) w = worker.iterations more w'.
Proof.
  revert w. induction ticks as [| [draw |] ticks IH]; intros w Hrun.
  - by injection Hrun as ->.
  - rewrite <- app_comm_cons. cbn [worker.iterations] in *.
    unfold bind in *.
    destruct (worker.loop_body draw w) as [[[] | e] w1]; [| done].
    by apply IH.
  - done.
Qed.

Lemma worker_loop_running (ticks : list worker.tick) (w w' : state) :
  worker.worker_loop ticks w = (Ok worker.Running, w') ->
  worker.iterations ticks w = (Ok worker.Running, w').
Proof.
  unfold worker.worker_loop, worker.except_KeyboardInterrupt.
  by destruct (worker.iterations ticks w) as [[st | []] w1].
Qed.

Lemma iterations_idle (draws : list Qc) (w : state) :
  w.(task_queue) = [] ->
  worker.iterations (worker.Draw <$> draws) w
  = (Ok worker.Running,
     set_slept
       (w.(slept) ++ replicate (length draws) worker.IDLE_SLEEP_SECONDS) w).
Proof.
  revert w. induction draws as [| draw draws IH]; intros w E.
  - cbn. rewrite app_nil_r. by destruct w.
  - rewrite fmap_cons. cbn [worker.iterations length replicate].
    unfold bind. rewrite (loop_body_idle w draw E).
    rewrite IH by done. cbn [slept set_slept task_queue task_status
      local_task]. by rewrite <- app_assoc.
Qed.

(** X15.  With nothing in the queue the worker only sleeps: every
    iteration adds one sleep of [IDLE_SLEEP_SECONDS], none raises, and
    the queue, the status hash and the worker's variable are as
    before. *)
Theorem idle_worker_only_sleeps (draws : list Qc) (w : state) :
  w.(task_queue) = [] ->
  worker.worker_loop (worker.Draw <$> draws) w
  = (Ok worker.Running,
     set_slept
       (w.(slept) ++ replicate (length draws) worker.IDLE_SLEEP_SECONDS) w).
Proof.
  intros E. unfold worker.worker_loop, worker.except_KeyboardInterrupt.
  by rewrite iterations_idle.
Qed.

(** X16.  When the iterations so far have gone through without an error,
    the shutdown signal ends [worker_loop] normally, through its handler,
    in the state those iterations left; what would have come after the
    signal plays no part. *)
Theorem shutdown_signal_stops_cleanly (ticks more : list worker.tick)
    (w w' : state) :
  worker.worker_loop ticks w = (Ok worker.Running, w') ->
  worker.worker_loop (ticks ++ worker.Interrupt :: more) w
  = (Ok worker.Stopped, w').
Proof.
  intros Hrun%worker_loop_running.
  unfold worker.worker_loop, worker.except_KeyboardInterrupt.
  by rewrite (iterations_app _ _ _ _ Hrun).
Qed.

End more_worker_facts.

Section retry_and_submit.
Context `{MemberOrder}.


(** X20.  An iteration of the worker that ends in an error leaves the
    status hash as it was.  One that ends normally leaves it as it was
    too, or has put a task back and written for it the status the task
    was claimed with.  So the worker never writes [COMPLETED], [FAILED],
    [IN_PROGRESS] or [REQUEUED] of its own. *)
Theorem worker_status_writes (w : state) (draw : Qc) :
  match worker.loop_body draw w with
  | (Raised _, w') => w'.(task_status) = w.(task_status)
  | (Ok _, w') =>
      w'.(task_status) = w.(task_status)
      \/ exists m s zs t,
           w.(task_queue) = (m, s) :: zs
           /\ models.from_dict m = Ok t
           /\ w'.(task_status)
              = <[t.(models.id) := t.(models.status)]> w.(task_status)
  end.
Proof.
  rewrite loop_body_unfold.
  destruct w as [[| [m s] zs] h sl lt]; cbn [task_queue]; [by left |].
  destruct (models.from_dict m) as [t | e] eqn:Hm; [| done]. cbv zeta.
  destruct (bool_decide (draw < worker.FAILURE_PROBABILITY)%Qc); [| done].
  destruct (bool_decide (t.(models.retries) + 1 > worker.MAX_RETRIES));
    [done |].
  right. by exists m, s, zs, t.
Qed.

End retry_and_submit.

(** ** Instances of the further properties *)

Lemma from_dict_missing_key_witness :
  models.from_dict [("created_at"%string, JFloat (Q2Qc (1 # 1)))]
  = Raised (KeyError "id").
Proof.
  apply (from_dict_missing_key [("created_at"%string, JFloat (Q2Qc (1 # 1)))]).
  left. reflexivity.
Defined.

Lemma from_dict_defaults_witness :
  models.from_dict
    [("id"%string, JStr "x"); ("created_at"%string, JFloat (Q2Qc (1 # 1)))]
  = Ok (models.mkTask "x" [] 0 0 "pending" (Q2Qc (1 # 1))).
Proof. apply from_dict_defaults; reflexivity. Defined.

Lemma from_dict_reads_task_keys_witness :
  models.from_dict (("trace"%string, JNull) :: models.to_dict pending_task)
  = models.from_dict (models.to_dict pending_task ++ [("id"%string, JNull)]).
Proof.
  apply from_dict_reads_task_keys. intros key Hkey. unfold task_keys in Hkey.
  repeat (apply elem_of_cons in Hkey as [-> | Hkey]; [reflexivity |]).
  by apply elem_of_nil in Hkey.
Defined.



Lemma queue_ok_kept_witness :
  queue_ok
    (@redis_queue.enqueue_task arrival_order task_at_limit
       (waiting pending_task)).2.(task_queue)
  /\ queue_ok (redis_queue.dequeue_task (waiting pending_task)).2.(task_queue)
  /\ queue_ok
       (@worker.loop_body arrival_order failing_draw
          (waiting pending_task)).2.(task_queue).
Proof.
  apply (@queue_ok_kept arrival_order task_at_limit (waiting pending_task)
           failing_draw).
  split; simpl; [repeat constructor | apply NoDup_singleton].
Defined.

Lemma malformed_entry_is_lost_witness :
  exists key,
    redis_queue.dequeue_task
      (mkState [([("payload"%string, JDict [])], Q2Qc (0 # 1))] ∅ [] None)
    = (Raised (KeyError key), empty_state)
    /\ @worker.worker_loop arrival_order [worker.Draw passing_draw]
         (mkState [([("payload"%string, JDict [])], Q2Qc (0 # 1))] ∅ [] None)
       = (Raised (KeyError key), empty_state).
Proof.
  apply (@malformed_entry_is_lost arrival_order
           [("payload"%string, JDict [])] (Q2Qc (0 # 1)) []
           (mkState [([("payload"%string, JDict [])], Q2Qc (0 # 1))] ∅ [] None)
           passing_draw []).
  - reflexivity.
  - left. reflexivity.
Defined.

Lemma idle_worker_only_sleeps_witness :
  @worker.worker_loop arrival_order
    (worker.Draw <$> [passing_draw; failing_draw]) empty_state
  = (Ok worker.Running,
     set_slept
       (empty_state.(slept)
        ++ replicate (length [passing_draw; failing_draw])
             worker.IDLE_SLEEP_SECONDS)
       empty_state).
Proof.
  apply (@idle_worker_only_sleeps arrival_order [passing_draw; failing_draw]
           empty_state).
  reflexivity.
Defined.

Lemma shutdown_signal_stops_cleanly_witness :
  @worker.worker_loop arrival_order
    ([worker.Draw failing_draw]
     ++ worker.Interrupt :: [worker.Draw passing_draw])
    (waiting pending_task)
  = (Ok worker.Stopped,
     mkState
       [entry_of (models.mkTask "t1" [] 5 1 "pending" (Q2Qc (100 # 1)))]
       {[ "t1"%string := "pending"%string ]}
       [worker.SLEEP_SECONDS; float_of_int 2]
       (Some (models.mkTask "t1" [] 5 1 "REQUEUED" (Q2Qc (100 # 1))))).
Proof.
  apply (@shutdown_signal_stops_cleanly arrival_order
           [worker.Draw failing_draw] [worker.Draw passing_draw]
           (waiting pending_task)).
  reflexivity.
Defined.





(** * The score as the code computes it *)

Section binary64_facts.
Context `{MemberOrder}.

Lemma enqueue_task64_run (t : Task) (w : state) :
  binary64.enqueue_task t w
  = match binary64._priority_score t.(models.priority)
            t.(models.created_at) with
    | Ok score =>
        (Ok tt,
         mkState (client.zadd_entries (models.to_dict t) score w.(task_queue))
           (<[t.(models.id) := t.(models.status)]> w.(task_status))
           w.(slept) w.(local_task))
    | Raised e => (Raised e, w)
    end.
Proof.
  unfold binary64.enqueue_task, bind at 1, lift_result.
  by destruct (binary64._priority_score _ _).
Qed.

(** C1.  [late_high] has the higher priority and was created less than
    [10^6] seconds after [early_low].  The products
    [priority * 1_000_000] of the two convert to the same double, so the
    later timestamp gives [late_high] the strictly higher score, and
    from an empty queue [dequeue_task] answers with [early_low] first
    and [late_high] second, in whichever order the two were put in and
    however Redis orders equal scores.  [first_in] and [second_in] have
    the same priority and [second_in] was created later, yet the two
    get the same score, so that their order is left to the order of
    equal scores and not to [created_at]. *)
Theorem higher_priority_pops_last :
  late_high.(models.priority) > early_low.(models.priority)
  /\ (late_high.(models.created_at) - early_low.(models.created_at)
      < Q2Qc (1000000 # 1))%Qc
  /\ binary64.float_of_int (- (late_high.(models.priority) * 1000000))
     = binary64.float_of_int (- (early_low.(models.priority) * 1000000))
  /\ (exists s_low s_high,
        binary64._priority_score early_low.(models.priority)
          early_low.(models.created_at) = Ok s_low
        /\ binary64._priority_score late_high.(models.priority)
             late_high.(models.created_at) = Ok s_high
        /\ (s_low < s_high)%Qc)
  /\ ((binary64.enqueue_task late_high ;; binary64.enqueue_task early_low ;;
       dequeue_repeatedly 2) empty_state).1
     = Ok [early_low; late_high]
  /\ ((binary64.enqueue_task early_low ;; binary64.enqueue_task late_high ;;
       dequeue_repeatedly 2) empty_state).1
     = Ok [early_low; late_high]
  /\ first_in.(models.priority) = second_in.(models.priority)
  /\ (first_in.(models.created_at) < second_in.(models.created_at))%Qc
  /\ binary64._priority_score first_in.(models.priority)
       first_in.(models.created_at)
     = binary64._priority_score second_in.(models.priority)
         second_in.(models.created_at).
Proof.
  split; [done |]. split; [done |]. split; [reflexivity |]. split.
  - eexists _, _. split; [reflexivity |]. split; [reflexivity |].
    reflexivity.
  - repeat split; reflexivity.
Qed.

(** X4.  [enqueue_task] computes the score before it writes.  When that
    raises, as the conversion of [priority * 1_000_000] to a double does
    for the priority [10^303], the call raises the same error and the
    queue and the status hash are as before.  Otherwise the entry is put
    in under that score, [get_task_status] of the task's id answers with
    the task's status whatever the hash held for it, and the status of
    every other id is as before. *)
Theorem enqueue_task_writes_or_raises (t : Task) (w : state)
    (other : string) :
  match binary64._priority_score t.(models.priority)
          t.(models.created_at) with
  | Raised e => binary64.enqueue_task t w = (Raised e, w)
  | Ok score =>
      exists w',
        binary64.enqueue_task t w = (Ok tt, w')
        /\ w'.(task_queue)
           = client.zadd_entries (models.to_dict t) score w.(task_queue)
        /\ redis_queue.get_task_status t.(models.id) w'
           = (Ok (Some t.(models.status)), w')
        /\ (other <> t.(models.id) ->
            redis_queue.get_task_status other w'
            = (Ok (w.(task_status) !! other), w'))
        /\ w'.(slept) = w.(slept)
        /\ w'.(local_task) = w.(local_task)
  end
  /\ binary64.enqueue_task huge_priority_task w = (Raised OverflowError, w).
Proof.
  split.
  - rewrite enqueue_task64_run.
    destruct (binary64._priority_score _ _) as [score | e]; [| done].
    eexists. split; [reflexivity |].
    unfold redis_queue.get_task_status, client.hget. cbn [task_queue
      task_status slept local_task]. repeat split.
    + by rewrite lookup_insert_eq.
    + intros Hne. by rewrite lookup_insert_ne.
  - rewrite enqueue_task64_run.
    by replace (binary64._priority_score _ _)
      with (@Raised Qc OverflowError) by (vm_compute; reflexivity).
Qed.

(** X19.  [submit_task] on an empty queue: when the score of the new task
    cannot be computed, the call raises that error and nothing is queued
    or published.  Otherwise it answers with the id it was given and the
    status [pending], publishes [pending] for the id, and the task
    [dequeue_task] answers with next has the payload of the request, its
    priority or 0 when the request has none, no retries, status [pending]
    and the time of the call as [created_at]. *)
Theorem submit_then_claim_or_raise (request : main.SubmitTaskRequest)
    (uuid : string) (now : Qc) (w : state) :
  w.(task_queue) = [] ->
  let task :=
    models.mkTask uuid request.(main.payload)
      (default 0 request.(main.priority)) 0 "pending" now in
  match binary64._priority_score task.(models.priority) now with
  | Raised e => binary64.submit_task request uuid now w = (Raised e, w)
  | Ok _ =>
      exists w1,
        binary64.submit_task request uuid now w
        = (Ok {| main.task_id := uuid; main.status := "pending" |}, w1)
        /\ redis_queue.get_task_status uuid w1
           = (Ok (Some "pending"%string), w1)
        /\ redis_queue.dequeue_task w1
           = (Ok (Some task), set_task_queue [] w1)
  end.
Proof.
  intros E task.
  assert (Hp : match request.(main.priority) with Some p => p | None => 0 end
               = default 0 request.(main.priority))
    by (by destruct request as [p [pr |]]).
  assert (Hrun :
    binary64.submit_task request uuid now w
    = match binary64._priority_score task.(models.priority) now with
      | Ok score =>
          (Ok {| main.task_id := uuid; main.status := "pending" |},
           mkState
             (client.zadd_entries (models.to_dict task) score w.(task_queue))
             (<[uuid := "pending"%string]> w.(task_status))
             w.(slept) w.(local_task))
      | Raised e => (Raised e, w)
      end).
  { unfold binary64.submit_task, bind. rewrite enqueue_task64_run, Hp.
    cbn [models.priority models.created_at models.id models.status].
    fold task. cbn [task models.priority].
    by destruct (binary64._priority_score _ now). }
  rewrite Hrun. clear Hrun.
  destruct (binary64._priority_score _ now) as [score | e]; [| done].
  eexists. split; [reflexivity |]. split.
  - unfold redis_queue.get_task_status, client.hget. cbn [task_status].
    by rewrite lookup_insert_eq.
  - rewrite E, zadd_entries_nil.
    by erewrite dequeue_task_head by reflexivity.
Qed.
End binary64_facts.

(** ** The worker and the statistics at further inputs *)

(** C3.  [task_past_limit] has [retries + 1 > MAX_RETRIES].  It is the one
    task waiting, it is claimed and its execution fails.  The iteration
    leaves the queue empty and sets [FAILED] on the worker's own object,
    and then ends in the [TypeError] of [mark_task_failed()]: the status
    hash still holds [pending] for the task.  [pending_task] has
    [retries + 1 <= MAX_RETRIES]; after its failed execution the status
    hash holds [pending] for it and the entry put back is claimed with
    status [pending].  Neither [FAILED] nor [REQUEUED] is recorded. *)
Theorem failure_is_not_recorded :
  let failed :=
    @worker.loop_body arrival_order failing_draw (waiting task_past_limit) in
  let requeued :=
    @worker.loop_body arrival_order failing_draw (waiting pending_task) in
  task_past_limit.(models.retries) + 1 > worker.MAX_RETRIES
  /\ failed.1 = Raised TypeError
  /\ failed.2.(task_queue) = []
  /\ models.status <$> failed.2.(local_task) = Some "FAILED"%string
  /\ (redis_queue.get_task_status "t1" failed.2).1
     = Ok (Some "pending"%string)
  /\ pending_task.(models.retries) + 1 <= worker.MAX_RETRIES
  /\ requeued.1 = Ok tt
  /\ (redis_queue.get_task_status "t1" requeued.2).1
     = Ok (Some "pending"%string)
  /\ (redis_queue.dequeue_task requeued.2).1
     = Ok (Some (models.mkTask "t1" [] 5 1 "pending" (Q2Qc (100 # 1)))).
Proof. repeat split; reflexivity || done. Qed.

(** C8.  A task is submitted to the empty store.  The status hash then
    holds one field, with the status [pending] that [submit_task] gave
    the task, and [get_stats] answers with a queue size of 1 and with
    four counts that are all 0: the task is counted under no status. *)
Theorem stats_miss_submitted_task :
  let request := {| main.payload := []; main.priority := Some 5 |} in
  let w :=
    (@main.submit_task arrival_order request "t1" (Q2Qc (100 # 1))
       empty_state).2 in
  redis_queue.get_task_status "t1" w = (Ok (Some "pending"%string), w)
  /\ size w.(task_status) = 1%nat
  /\ redis_queue.get_stats w
     = (Ok [ ("queue_size"%string, JInt 1);
             ("status_counts"%string,
               JDict [ ("QUEUED"%string, JInt 0);
                       ("IN_PROGRESS"%string, JInt 0);
                       ("COMPLETED"%string, JInt 0);
                       ("FAILED"%string, JInt 0) ]) ],
        w).
Proof. repeat split; reflexivity. Qed.

Lemma submit_then_claim_or_raise_witness :
  exists w1,
    @binary64.submit_task arrival_order
      {| main.payload := []; main.priority := None |} "t1" (Q2Qc (100 # 1))
      empty_state
    = (Ok {| main.task_id := "t1"; main.status := "pending" |}, w1)
    /\ redis_queue.get_task_status "t1" w1 = (Ok (Some "pending"%string), w1)
    /\ redis_queue.dequeue_task w1
       = (Ok (Some (models.mkTask "t1" [] (default 0 None) 0 "pending"
                      (Q2Qc (100 # 1)))),
          set_task_queue [] w1).
Proof.
  apply (@submit_then_claim_or_raise arrival_order
           {| main.payload := []; main.priority := None |} "t1"
           (Q2Qc (100 # 1)) empty_state).
  reflexivity.
Defined.
